(** * Smart Farming Assistant (src/app.py): context builder, model invoker and /chat route

    A shallow embedding of the Flask application's core: the system prompt
    of [generate_system_prompt], the conversation assembled by
    [get_ai_response] before the Gemini call, the fallback text of its
    [except] branch, and the [/chat] route that calls it. *)

From Stdlib Require Import String Ascii List Bool Arith Lia QArith.
Import ListNotations.
Open Scope nat_scope.
Open Scope string_scope.

(** ** Python helpers *)

(** The newline character, written [\n] in the Python literals. *)
Definition nl : string := String (ascii_of_nat 10) EmptyString.

(** Python slicing [xs[-k:]]: the elements from index [max(0, len(xs) - k)]. *)
Definition slice_last {A} (k : nat) (xs : list A) : list A :=
  skipn (length xs - k) xs.

(** Python's [key in d] followed by [d[key]] on a dict literal, kept as an
    association list in the literal's order. *)
Fixpoint dict_get (key : string) (d : list (string * string)) : option string :=
  match d with
  | [] => None
  | (k, v) :: d' => if String.eqb k key then Some v else dict_get key d'
  end.

(** ** Configuration (lines 29-39) *)

Record GenerationConfig := {
  temperature : Q;
  top_p : Q;
  top_k : Z;
  max_output_tokens : Z
}.

Definition generation_config : GenerationConfig := {|
  temperature := 0.7%Q;
  top_p := 0.95%Q;
  top_k := 40%Z;
  max_output_tokens := 2048%Z
|}.

(** ** Prompt generation (generate_system_prompt, lines 120-158) *)

Definition base_prompt : string :=
"You are AgroNova, an expert AI agricultural assistant helping farmers worldwide. 
You provide practical, actionable farming advice based on scientific principles and regional best practices.

Your expertise includes:
- Crop recommendations based on location, season, soil type, and climate
- Pest and disease identification and management (organic and chemical solutions)
- Weather-based farming advice and planning
- Soil health and fertilizer recommendations
- Sustainable and organic farming practices

Always provide:
1. Clear, structured responses with practical steps
2. Region-specific advice when location is mentioned
3. Both organic and conventional solutions when applicable
4. Safety warnings for chemical applications
5. Preventive measures alongside treatments

Format your responses with:
- Clear headings using **bold** for main points
- Bullet points for lists
- Emojis for visual appeal (üåæ üêõ üíß üå± etc.)
- Specific measurements and timings
- Action-oriented language

Keep responses concise but comprehensive, typically 200-400 words unless detailed technical information is requested.".

Definition feature_contexts : list (string * string) := [
  ("crop-recommendation", (nl ++ nl ++ "Focus on: Suggesting appropriate crops based on soil type, climate, season, water availability, and market demand. Include planting times, expected yields, and care requirements.")%string);
  ("pest-disease", (nl ++ nl ++ "Focus on: Identifying pests and diseases from descriptions, providing both organic and chemical treatment options, preventive measures, and application guidelines.")%string);
  ("weather-alerts", (nl ++ nl ++ "Focus on: Providing weather-based farming advice, irrigation scheduling, harvest timing, and crop protection strategies during different weather conditions.")%string);
  ("soil-fertilizer", (nl ++ nl ++ "Focus on: Soil health assessment, pH management, nutrient deficiency identification, fertilizer recommendations (NPK ratios), and organic soil improvement methods.")%string);
  ("sustainable-farming", (nl ++ nl ++ "Focus on: Eco-friendly pest control, organic farming practices, companion planting, water conservation, biodiversity, and certification guidance.")%string)
]%list.

(** [if feature and feature in feature_contexts]: [None] and the empty
    string are falsy and select the base prompt. *)
Definition generate_system_prompt (feature : option string) : string :=
  match feature with
  | Some f =>
      if negb (String.eqb f "") then
        match dict_get f feature_contexts with
        | Some ctx => base_prompt ++ ctx
        | None => base_prompt
        end
      else base_prompt
  | None => base_prompt
  end.


(** ** Messages *)

(** An entry of the client's [chatHistory]: [{role, content}]. *)
Record Message := { role : string; content : string }.

(** A Gemini content entry: [{"role": ..., "parts": [...]}]. *)
Record Content := { c_role : string; parts : list string }.

Definition acknowledgment : string :=
  "I understand. I'm AgroNova, your agricultural assistant. I'll provide practical, region-specific farming advice with clear formatting and actionable steps.".

(** ** Building the conversation (get_ai_response, lines 164-184) *)

(** [role = "user" if msg["role"] == "user" else "model"] and
    [parts = [msg["content"]]]. *)
Definition convert (msg : Message) : Content := {|
  c_role := if String.eqb (role msg) "user" then "user" else "model";
  parts := [content msg]
|}.

(** The two appends before the history: the system prompt as a [user]
    entry, then the fixed acknowledgment as a [model] entry. *)
Definition priming_pair (feature : option string) : list Content :=
  [ {| c_role := "user"; parts := [generate_system_prompt feature] |};
    {| c_role := "model"; parts := [acknowledgment] |} ].

(** [if chat_history: for msg in chat_history[-6:]: ...]; [None] and the
    empty list are falsy. *)
Definition history_window (chat_history : option (list Message)) : list Content :=
  match chat_history with
  | Some ((_ :: _) as h) => map convert (slice_last 6 h)
  | _ => []
  end.

Definition build_conversation (feature : option string)
    (chat_history : option (list Message)) : list Content :=
  priming_pair feature ++ history_window chat_history.

(** ** The remote call (lines 186-190) *)

(** One completion request: [model] carries [generation_config];
    [model.start_chat(history=conversation)] then
    [chat.send_message(user_message)]. *)
Record Request := {
  req_config : GenerationConfig;
  req_history : list Content;
  req_message : string
}.

Definition ai_request (user_message : string) (feature : option string)
    (chat_history : option (list Message)) : Request := {|
  req_config := generation_config;
  req_history := build_conversation feature chat_history;
  req_message := user_message
|}.

(** The content sequence the service receives for one turn: the chat
    history followed by the sent message as a [user] entry. *)
Definition invocation_context (r : Request) : list Content :=
  req_history r ++ [ {| c_role := "user"; parts := [req_message r] |} ].

(** The [except] branch (lines 192-207); [e] stands for [str(e)]. *)
Definition fallback_head : string :=
"**Error Processing Request**

I encountered an issue generating a response. This could be due to:
- API key not configured properly
- Network connectivity issues
- API rate limits

**Please ensure:**
1. Your Gemini API key is correctly set in the code (app_key variable)
2. You have an active internet connection
3. Your API key has sufficient quota

Error details: ".

Definition fallback (e : string) : string := fallback_head ++ e.

Section Service.

(** The Gemini service: the text of the response, or the detail [str(e)]
    of the exception raised by [send_message] or [response.text]. *)
Variable service : Request -> string + string.

(** [get_ai_response] with the requests it sends: every path returns a
    string. *)
Definition get_ai_response (user_message : string) (feature : option string)
    (chat_history : option (list Message)) : list Request * string :=
  let r := ai_request user_message feature chat_history in
  ([r], match service r with
        | inl text => text
        | inr e => fallback e
        end).

(** ** The /chat route (lines 567-587) *)

(** The JSON body: [data.get('message', '')], [data.get('feature')] and
    [data.get('history', [])]; [None] is JSON null (or, for [message] and
    [feature], a missing key). *)
Record ChatData := {
  message : option string;
  feature : option string;
  history : option (list Message)
}.

Inductive HttpResponse :=
| JsonResponse (response : string) (timestamp : string)
| JsonError (error : string) (status : nat).

(** [now] is [datetime.now().isoformat()]. *)
Definition chat (now : string) (data : ChatData) : list Request * HttpResponse :=
  match message data with
  | Some user_message =>
      if negb (String.eqb user_message "") then
        let (calls, ai_response) :=
          get_ai_response user_message (feature data) (history data) in
        (calls, JsonResponse ai_response now)
      else ([], JsonError "No message provided" 400)
  | None => ([], JsonError "No message provided" 400)
  end.

End Service.

(** ** Catalog data (FEATURES and SAMPLE_PROMPTS, lines 45-114) *)

Record Feature := {
  feature_id : string;
  title : string;
  description : string;
  icon : string;
  color : string
}.

Definition FEATURES : list Feature := [
  {| feature_id := "crop-recommendation";
     title := "Crop Recommendation";
     description := "Get suggestions for crops based on your location, season, and soil type";
     icon := "üåæ";
     color := "bg-green-100" |};
  {| feature_id := "pest-disease";
     title := "Pest & Disease Management";
     description := "Identify and treat crop diseases and pest infestations";
     icon := "üêõ";
     color := "bg-red-100" |};
  {| feature_id := "weather-alerts";
     title := "Weather-Based Alerts";
     description := "Get weather forecasts and farming advice based on conditions";
     icon := "üå¶Ô∏è";
     color := "bg-blue-100" |};
  {| feature_id := "soil-fertilizer";
     title := "Soil & Fertilizer Advice";
     description := "Receive recommendations for soil treatment and fertilization";
     icon := "üå±";
     color := "bg-amber-100" |};
  {| feature_id := "sustainable-farming";
     title := "Sustainable Farming Tips";
     description := "Learn eco-friendly and organic farming practices";
     icon := "‚ôªÔ∏è";
     color := "bg-emerald-100" |}
]%list.

Definition SAMPLE_PROMPTS : list (string * list string) := [
  ("crop-recommendation",
    ["Suggest crops to plant in July in Tamil Nadu";
     "What should I grow in acidic soil in Odisha in September?";
     "Best crops for monsoon season in Kerala";
     "Crop recommendation for sandy soil in Rajasthan"]);
  ("pest-disease",
    ["White fungus on wheat leaves in Haryana ‚Äì treatment?";
     "How to treat aphids on tomato plants organically?";
     "Yellow spots on rice leaves - what is it?";
     "Pest control for cotton crops in Maharashtra"]);
  ("weather-alerts",
    ["Rain prediction and farming advice for Punjab this week?";
     "Weather forecast for harvesting season in Karnataka";
     "Should I irrigate my crops this week in Gujarat?";
     "Best time to apply fertilizer based on weather in UP"]);
  ("soil-fertilizer",
    ["What should I grow in slightly acidic soil in Kenya?";
     "NPK fertilizer ratio for wheat cultivation";
     "How to improve clay soil for vegetable farming?";
     "Organic fertilizer recommendations for sugarcane"]);
  ("sustainable-farming",
    ["Give eco-friendly pest control methods for grapes in Italy";
     "Organic farming practices for small-scale farmers";
     "Water conservation techniques for paddy fields";
     "Companion planting guide for vegetables"])
]%list.

(** ** Browser client (the script of HTML_TEMPLATE, lines 353-538) *)

(** The double quote character. *)
Definition dquote : ascii := ascii_of_nat 34.

(** [escapeHtml(text)]: a global regex replace of each of the characters
    ampersand, less-than, greater-than, double quote and single quote by
    its entity from [map], one character at a time. *)
Definition escape_char (c : ascii) : string :=
  if Ascii.eqb c "&"%char then "&amp;"
  else if Ascii.eqb c "<"%char then "&lt;"
  else if Ascii.eqb c ">"%char then "&gt;"
  else if Ascii.eqb c dquote then "&quot;"
  else if Ascii.eqb c "'"%char then "&#039;"
  else String c EmptyString.

Fixpoint escapeHtml (text : string) : string :=
  match text with
  | EmptyString => EmptyString
  | String c rest => escape_char c ++ escapeHtml rest
  end.

(** The characters matched by the regex of [escapeHtml]. *)
Definition html_special (c : ascii) : bool :=
  Ascii.eqb c "&"%char || Ascii.eqb c "<"%char || Ascii.eqb c ">"%char ||
  Ascii.eqb c dquote || Ascii.eqb c "'"%char.

(** The characters that open or close markup or an attribute value. *)
Definition markup_char (c : ascii) : bool :=
  Ascii.eqb c "<"%char || Ascii.eqb c ">"%char ||
  Ascii.eqb c dquote || Ascii.eqb c "'"%char.

Fixpoint all_chars (p : ascii -> bool) (s : string) : bool :=
  match s with
  | EmptyString => true
  | String c rest => p c && all_chars p rest
  end.

(** The decoding of the five entities [escapeHtml] emits (used in proofs). *)
Fixpoint unescape_html (s : string) : string :=
  match s with
  | EmptyString => EmptyString
  | String "&" (String "a" (String "m" (String "p" (String ";" r)))) =>
      String "&" (unescape_html r)
  | String "&" (String "l" (String "t" (String ";" r))) =>
      String "<" (unescape_html r)
  | String "&" (String "g" (String "t" (String ";" r))) =>
      String ">" (unescape_html r)
  | String "&" (String "q" (String "u" (String "o" (String "t" (String ";" r))))) =>
      String dquote (unescape_html r)
  | String "&" (String "#" (String "0" (String "3" (String "9" (String ";" r))))) =>
      String "'" (unescape_html r)
  | String c r => String c (unescape_html r)
  end.

(** The page state: [selectedFeature], [chatHistory], [isLoading] and the
    value of the [user-input] textarea. *)
Record ClientState := {
  selectedFeature : option string;
  chatHistory : list Message;
  isLoading : bool;
  inputValue : string
}.

Definition client_init : ClientState := {|
  selectedFeature := None;
  chatHistory := [];
  isLoading := false;
  inputValue := ""
|}.

(** The outcome of [await fetch('/chat', ...)] and [response.json()]. *)
Inductive FetchResult :=
| Fetched (resp : HttpResponse)
| FetchFailed (error_message : string).

(** [selectFeature(featureId, element)] and the clear-feature handler. *)
Definition selectFeature (featureId : string) (st : ClientState) : ClientState :=
  {| selectedFeature := Some featureId; chatHistory := chatHistory st;
     isLoading := isLoading st; inputValue := inputValue st |}.

Definition clearFeature (st : ClientState) : ClientState :=
  {| selectedFeature := None; chatHistory := chatHistory st;
     isLoading := isLoading st; inputValue := inputValue st |}.

Section Client.

(** [String.prototype.trim]. *)
Variable js_trim : string -> string.
(** The server's answer to a POST of the given body. *)
Variable server : ChatData -> FetchResult.

(** [sendMessage(customMessage)], run to completion: the new state and
    the body posted to /chat, if any. A sample-prompt button passes
    [Some prompt]; the send button and Enter pass [None]. *)
Definition sendMessage (customMessage : option string) (st : ClientState)
    : ClientState * option ChatData :=
  if isLoading st then (st, None) else
  (* const message = customMessage || input.value.trim(); *)
  let message := match customMessage with
                 | Some c => if String.eqb c "" then js_trim (inputValue st) else c
                 | None => js_trim (inputValue st)
                 end in
  if String.eqb message "" then (st, None) else
  let hist := (chatHistory st ++ [ {| role := "user"; content := message |} ])%list in
  (* if (!customMessage) input.value = ''; *)
  let input := match customMessage with
               | Some c => if String.eqb c "" then "" else inputValue st
               | None => ""
               end in
  let body := {| message := Some message; feature := selectedFeature st;
                 history := Some hist |} in
  let hist' :=
    match server body with
    | Fetched (JsonResponse response _) =>
        (hist ++ [ {| role := "assistant"; content := response |} ])%list
    (* data.error is set: only the error is displayed. With an empty error
       string the else branch runs and addMessage throws on the missing
       response before the push; either way nothing is pushed. *)
    | Fetched (JsonError _ _) => hist
    | FetchFailed _ => hist
    end in
  ({| selectedFeature := selectedFeature st; chatHistory := hist';
      isLoading := false; inputValue := input |}, Some body).

(** The user's actions on the page. *)
Inductive ClientAction :=
| TypeInput (value : string)
| Send (customMessage : option string)
| Select (featureId : string)
| Clear.

Definition client_step (st : ClientState) (a : ClientAction) : ClientState :=
  match a with
  | TypeInput v =>
      {| selectedFeature := selectedFeature st; chatHistory := chatHistory st;
         isLoading := isLoading st; inputValue := v |}
  | Send c => fst (sendMessage c st)
  | Select id => selectFeature id st
  | Clear => clearFeature st
  end.


End Client.

(** The client talking to the /chat route of this server. *)
Definition server_of (svc : Request -> string + string) (now : string)
    : ChatData -> FetchResult :=
  fun body => Fetched (snd (chat svc now body)).




(** ** Substrings of a text *)

(** [needle] occurs in [hay] (Python's [needle in hay]). *)
Definition occurs_in (needle hay : string) : Prop :=
  exists before after, hay = before ++ needle ++ after.

Fixpoint contains (needle hay : string) : bool :=
  String.prefix needle hay ||
  match hay with
  | EmptyString => false
  | String _ rest => contains needle rest
  end.

(** The role rule of the window: ["user"] stays [user], any other role
    becomes [model]; the content is kept. *)
Definition role_mapped (m : Message) (c : Content) : Prop :=
  ((role m = "user" /\ c_role c = "user") \/
   (role m <> "user" /\ c_role c = "model")) /\
  parts c = [content m].

(** Sample history entries. *)
Definition msg_u (s : string) : Message := {| role := "user"; content := s |}.
Definition msg_a (s : string) : Message := {| role := "assistant"; content := s |}.

(** ** General lemmas *)

Lemma string_app_assoc (a b c : string) : (a ++ b) ++ c = a ++ (b ++ c).
Proof. induction a as [|ch a IH]; simpl; [reflexivity | now rewrite IH]. Qed.

Lemma prefix_split (n h : string) :
  String.prefix n h = true -> exists rest, h = n ++ rest.
Proof.
  revert h; induction n as [|ch n IH]; intros h Hp.
  - now exists h.
  - destruct h as [|ch' h]; simpl in Hp; [discriminate|].
    destruct (ascii_dec ch ch') as [<-|]; [|discriminate].
    destruct (IH h Hp) as [rest ->]. now exists rest.
Qed.

Lemma contains_occurs (n h : string) : contains n h = true -> occurs_in n h.
Proof.
  induction h as [|ch h IH]; intros Hc; cbn [contains] in Hc.
  - rewrite orb_false_r in Hc. destruct n; [|discriminate].
    now exists EmptyString, EmptyString.
  - apply orb_true_iff in Hc as [Hp|Hc].
    + destruct (prefix_split _ _ Hp) as [rest Hr]. exists EmptyString, rest. exact Hr.
    + destruct (IH Hc) as [b [a ->]]. exists (String ch b), a. reflexivity.
Qed.

Lemma occurs_in_app_r (n h t : string) : occurs_in n h -> occurs_in n (h ++ t).
Proof.
  intros [b [a ->]]. exists b, (a ++ t). now rewrite !string_app_assoc.
Qed.

Lemma occurs_in_fallback_head (n e : string) :
  contains n fallback_head = true -> occurs_in n (fallback e).
Proof. intros H. apply occurs_in_app_r, contains_occurs, H. Qed.

Open Scope list_scope.

Lemma slice_last_app {A} (k : nat) (pre w : list A) :
  length w = k -> slice_last k (pre ++ w) = w.
Proof.
  intros Hw. unfold slice_last. rewrite length_app, skipn_app.
  replace (length pre + length w - k - length pre) with 0 by lia.
  rewrite skipn_all2 by lia. reflexivity.
Qed.

Lemma slice_last_split {A} (k : nat) (h : list A) :
  h = firstn (length h - k) h ++ slice_last k h /\
  length (slice_last k h) = Nat.min k (length h).
Proof.
  unfold slice_last. split.
  - symmetry. apply firstn_skipn.
  - rewrite length_skipn. lia.
Qed.

Lemma history_window_some (h : list Message) :
  history_window (Some h) = map convert (slice_last 6 h).
Proof. destruct h; reflexivity. Qed.

Lemma history_window_length (h : option (list Message)) :
  length (history_window h) = Nat.min 6 (length (match h with Some l => l | None => [] end)).
Proof.
  destruct h as [h|]; [|reflexivity].
  rewrite history_window_some, length_map. apply slice_last_split.
Qed.

Lemma invocation_context_ai_request um f h :
  invocation_context (ai_request um f h) =
  priming_pair f ++ history_window h ++ [ {| c_role := "user"; parts := [um] |} ].
Proof.
  unfold invocation_context, ai_request, build_conversation.
  cbn [req_history req_message]. now rewrite <- app_assoc.
Qed.

Lemma string_app_empty_r (a : string) : (a ++ EmptyString)%string = a.
Proof. induction a as [|ch a IH]; simpl; [reflexivity | now rewrite IH]. Qed.

Lemma convert_role_mapped (m : Message) : role_mapped m (convert m).
Proof.
  unfold role_mapped, convert; cbn [c_role parts]. split; [|reflexivity].
  destruct (String.eqb (role m) "user") eqn:E.
  - left. split; [apply String.eqb_eq, E | reflexivity].
  - right. split; [apply String.eqb_neq, E | reflexivity].
Qed.

Lemma Forall2_map_convert (l : list Message) : Forall2 role_mapped l (map convert l).
Proof. induction l; constructor; auto using convert_role_mapped. Qed.

(** * Claims *)

(** C1: for every history [h], the entries of the invocation context
    between the priming pair and the new message are the converted last
    [min 6 (length h)] entries of [h], in order: the last 6 when
    [length h >= 6], and all of [h] when it is shorter (then the dropped
    prefix is empty); no padding, no failure. *)
Theorem window_last_six (um : string) (f : option string) (h : list Message) :
  exists pre w,
    h = pre ++ w /\
    length w = Nat.min 6 (length h) /\
    length pre = length h - 6 /\
    invocation_context (ai_request um f (Some h)) =
      priming_pair f ++ map convert w ++ [ {| c_role := "user"; parts := [um] |} ].
Proof.
  destruct (slice_last_split 6 h) as [Hsplit Hlen].
  exists (firstn (length h - 6) h), (slice_last 6 h).
  split; [exact Hsplit|]. split; [exact Hlen|]. split.
  - rewrite length_firstn. lia.
  - now rewrite invocation_context_ai_request, history_window_some.
Qed.

(** C2 (counterexample): a whitespace-only message is not rejected by the
    /chat route; it reaches the model. *)
Lemma chat_whitespace_invokes_model :
  fst (chat (fun _ => inl "ok") "t"
         {| message := Some " "; feature := None; history := None |}) <> [] /\
  snd (chat (fun _ => inl "ok") "t"
         {| message := Some " "; feature := None; history := None |}) =
    JsonResponse "ok" "t".
Proof. split; [discriminate | reflexivity]. Qed.

(** C2 (amended): the /chat route rejects, with status 400 and no model
    invocation, exactly the messages that are missing, null or the empty
    string; every other message, whitespace-only ones included, makes one
    model invocation and is answered with the returned text. *)
Theorem chat_rejects_only_empty (svc : Request -> string + string)
    (now : string) (data : ChatData) :
  ((message data = None \/ message data = Some "") /\
   chat svc now data = ([], JsonError "No message provided" 400)) \/
  (exists um, message data = Some um /\ um <> "" /\
     chat svc now data =
       ([ai_request um (feature data) (history data)],
        JsonResponse (snd (get_ai_response svc um (feature data) (history data))) now)).
Proof.
  destruct data as [[um|] f h]; unfold chat; cbn [message feature history].
  - destruct (String.eqb um "") eqn:E; cbn [negb].
    + left. apply String.eqb_eq in E. subst. split; [right | ]; reflexivity.
    + right. exists um. split; [reflexivity|]. split; [apply String.eqb_neq, E|].
      reflexivity.
  - left. split; [left|]; reflexivity.
Qed.

(** C3: when the remote call fails with detail [e], [get_ai_response]
    returns the fallback text, which says the request could not be
    processed, lists the three causes (API key, connectivity, rate
    limits) and contains [e]; the /chat route returns it as an ordinary
    [response], like a model answer. *)
Theorem fallback_on_failure (svc : Request -> string + string)
    (now um : string) (f : option string) (h : option (list Message)) (e : string)
    (Hfail : svc (ai_request um f h) = inr e) (Hne : um <> "") :
  get_ai_response svc um f h = ([ai_request um f h], fallback e) /\
  occurs_in "I encountered an issue generating a response" (fallback e) /\
  occurs_in "API key not configured properly" (fallback e) /\
  occurs_in "Network connectivity issues" (fallback e) /\
  occurs_in "API rate limits" (fallback e) /\
  occurs_in e (fallback e) /\
  chat svc now {| message := Some um; feature := f; history := h |} =
    ([ai_request um f h], JsonResponse (fallback e) now).
Proof.
  assert (Hr : get_ai_response svc um f h = ([ai_request um f h], fallback e)).
  { unfold get_ai_response. now rewrite Hfail. }
  split; [exact Hr|].
  split; [apply occurs_in_fallback_head; vm_compute; reflexivity|].
  split; [apply occurs_in_fallback_head; vm_compute; reflexivity|].
  split; [apply occurs_in_fallback_head; vm_compute; reflexivity|].
  split; [apply occurs_in_fallback_head; vm_compute; reflexivity|].
  split.
  - exists fallback_head, EmptyString. now rewrite string_app_empty_r.
  - unfold chat; cbn [message feature history].
    apply String.eqb_neq in Hne. rewrite Hne. cbn [negb]. now rewrite Hr.
Qed.

Lemma fallback_on_failure_witness :
  (fun _ : Request => inr "429 Quota exceeded" : string + string)
    (ai_request "aphids on tomato" None None) = inr "429 Quota exceeded" /\
  "aphids on tomato" <> "" /\
  chat (fun _ => inr "429 Quota exceeded") "t"
    {| message := Some "aphids on tomato"; feature := None; history := None |} =
    ([ai_request "aphids on tomato" None None],
     JsonResponse (fallback "429 Quota exceeded") "t").
Proof.
  split; [reflexivity|]. split; [discriminate|].
  apply (fallback_on_failure (fun _ => inr "429 Quota exceeded") "t"
           "aphids on tomato" None None "429 Quota exceeded");
    [reflexivity | discriminate].
Defined.

(** C4: a topic id absent from the registry, and no topic id at all,
    give the base prompt unchanged, and the same request as no topic. *)
Theorem unknown_topic_is_no_topic (f : option string)
    (Hunknown : f = None \/ exists s, f = Some s /\ dict_get s feature_contexts = None) :
  generate_system_prompt f = base_prompt /\
  generate_system_prompt f = generate_system_prompt None /\
  (forall um h, ai_request um f h = ai_request um None h).
Proof.
  assert (Hb : generate_system_prompt f = base_prompt).
  { destruct Hunknown as [->|[s [-> Hs]]]; [reflexivity|].
    unfold generate_system_prompt. rewrite Hs.
    destruct (negb (String.eqb s "")); reflexivity. }
  split; [exact Hb|]. split; [exact Hb|].
  intros um h. unfold ai_request, build_conversation, priming_pair.
  now rewrite Hb.
Qed.

Lemma unknown_topic_is_no_topic_witness :
  dict_get "market-prices" feature_contexts = None /\
  generate_system_prompt (Some "market-prices") = base_prompt.
Proof.
  split; [reflexivity|].
  apply (unknown_topic_is_no_topic (Some "market-prices")).
  right. exists "market-prices". split; reflexivity.
Defined.

(** C5: every invocation context starts with the framing as a [user]
    entry and the fixed acknowledgment as a [model] entry, before the
    history window and the new message. *)
Theorem priming_pair_first (um : string) (f : option string)
    (h : option (list Message)) :
  exists mid,
    invocation_context (ai_request um f h) =
      {| c_role := "user"; parts := [generate_system_prompt f] |} ::
      {| c_role := "model"; parts := [acknowledgment] |} ::
      mid ++ [ {| c_role := "user"; parts := [um] |} ].
Proof.
  exists (history_window h). now rewrite invocation_context_ai_request.
Qed.

(** C6: the request built before the remote call depends only on the
    message, the topic and the history: it is the same whatever the
    service does, and it is always built, with [3 + min 6 (length h)]
    entries. *)
Theorem context_pure_total (svc1 svc2 : Request -> string + string)
    (um : string) (f : option string) (h : option (list Message)) :
  fst (get_ai_response svc1 um f h) = [ai_request um f h] /\
  fst (get_ai_response svc2 um f h) = fst (get_ai_response svc1 um f h) /\
  length (invocation_context (ai_request um f h)) =
    3 + Nat.min 6 (length (match h with Some l => l | None => [] end)).
Proof.
  split; [reflexivity|]. split; [reflexivity|].
  rewrite invocation_context_ai_request, !length_app, history_window_length.
  cbn. lia.
Qed.

(** C7: topic ["pest-disease"], empty history and a non-empty message:
    the /chat route sends one request whose context is the framing with
    the pest-disease focus, the acknowledgment and the message. *)
Theorem pest_disease_empty_history (svc : Request -> string + string)
    (now um : string) (Hne : um <> "") :
  exists frag,
    dict_get "pest-disease" feature_contexts = Some frag /\
    fst (chat svc now
           {| message := Some um; feature := Some "pest-disease"; history := Some [] |}) =
      [ai_request um (Some "pest-disease") (Some [])] /\
    invocation_context (ai_request um (Some "pest-disease") (Some [])) =
      [ {| c_role := "user"; parts := [(base_prompt ++ frag)%string] |};
        {| c_role := "model"; parts := [acknowledgment] |};
        {| c_role := "user"; parts := [um] |} ].
Proof.
  eexists. split; [reflexivity|]. split.
  - unfold chat; cbn [message feature history].
    apply String.eqb_neq in Hne. now rewrite Hne.
  - reflexivity.
Qed.

Lemma pest_disease_empty_history_witness :
  "aphids on tomato" <> "" /\
  length (fst (chat (fun _ => inr "simulated transport failure") "t"
    {| message := Some "aphids on tomato"; feature := Some "pest-disease";
       history := Some [] |})) = 1.
Proof.
  split; [discriminate|].
  destruct (pest_disease_empty_history (fun _ => inr "simulated transport failure")
              "t" "aphids on tomato" ltac:(discriminate)) as [frag [_ [Hc _]]].
  rewrite Hc. reflexivity.
Defined.

(** C8: the window entries are the last entries of the history, in
    order, each mapped by the role rule (["user"] to [user], anything
    else to [model]) with its content kept. *)
Theorem window_role_mapping (um : string) (f : option string) (h : list Message) :
  Forall2 role_mapped (slice_last 6 h) (history_window (Some h)) /\
  invocation_context (ai_request um f (Some h)) =
    priming_pair f ++ history_window (Some h) ++ [ {| c_role := "user"; parts := [um] |} ].
Proof.
  split.
  - rewrite history_window_some. apply Forall2_map_convert.
  - apply invocation_context_ai_request.
Qed.

(** C9: every request the /chat route sends carries temperature 0.7,
    top_p 0.95, top_k 40 and max_output_tokens 2048, whatever the body. *)
Theorem fixed_generation_config (svc : Request -> string + string)
    (now : string) (data : ChatData) :
  Forall (fun r => req_config r =
            {| temperature := 0.7%Q; top_p := 0.95%Q;
               top_k := 40%Z; max_output_tokens := 2048%Z |})
         (fst (chat svc now data)).
Proof.
  destruct data as [[um|] f h]; unfold chat; cbn [message feature history].
  - destruct (negb (String.eqb um "")); repeat constructor.
  - constructor.
Qed.

(** C10: entries before the last 6 do not influence [get_ai_response]:
    two histories ending in the same 6 entries give the same requests and
    the same text. *)
Theorem old_history_noninterference (svc : Request -> string + string)
    (um : string) (f : option string) (pre1 pre2 w : list Message)
    (Hw : length w = 6) :
  get_ai_response svc um f (Some (pre1 ++ w)) =
  get_ai_response svc um f (Some (pre2 ++ w)).
Proof.
  unfold get_ai_response, ai_request, build_conversation.
  rewrite !history_window_some, !slice_last_app by exact Hw.
  reflexivity.
Qed.

Lemma old_history_noninterference_witness :
  length [msg_u "q1"; msg_a "a1"; msg_u "q2"; msg_a "a2"; msg_u "q3"; msg_a "a3"] = 6 /\
  get_ai_response (fun _ => inl "ok") "q4" (Some "pest-disease")
    (Some ([msg_u "old"] ++
           [msg_u "q1"; msg_a "a1"; msg_u "q2"; msg_a "a2"; msg_u "q3"; msg_a "a3"])) =
  get_ai_response (fun _ => inl "ok") "q4" (Some "pest-disease")
    (Some ([msg_u "older"; msg_a "other"] ++
           [msg_u "q1"; msg_a "a1"; msg_u "q2"; msg_a "a2"; msg_u "q3"; msg_a "a3"])).
Proof.
  split; [reflexivity|].
  apply old_history_noninterference. reflexivity.
Defined.

(** * Further properties of the code *)

(** ** Lemmas on escapeHtml *)

Lemma all_chars_app (p : ascii -> bool) (a b : string) :
  all_chars p (a ++ b)%string = all_chars p a && all_chars p b.
Proof.
  induction a as [|c a IH]; simpl; [reflexivity|]. now rewrite IH, andb_assoc.
Qed.

Lemma escape_char_no_markup (c : ascii) :
  all_chars (fun x => negb (markup_char x)) (escape_char c) = true.
Proof.
  unfold escape_char.
  destruct (Ascii.eqb c "&"%char) eqn:E1; [reflexivity|].
  destruct (Ascii.eqb c "<"%char) eqn:E2; [reflexivity|].
  destruct (Ascii.eqb c ">"%char) eqn:E3; [reflexivity|].
  destruct (Ascii.eqb c dquote) eqn:E4; [reflexivity|].
  destruct (Ascii.eqb c "'"%char) eqn:E5; [reflexivity|].
  simpl. unfold markup_char. now rewrite E2, E3, E4, E5.
Qed.

Lemma unescape_html_other (c : ascii) (r : string) :
  c <> "&"%char -> unescape_html (String c r) = String c (unescape_html r).
Proof.
  intros Hc.
  destruct c as [[] [] [] [] [] [] [] []]; try reflexivity.
  exfalso. apply Hc. reflexivity.
Qed.

Lemma unescape_escape_char (c : ascii) (r : string) :
  unescape_html (escape_char c ++ r)%string = String c (unescape_html r).
Proof.
  unfold escape_char.
  destruct (Ascii.eqb c "&"%char) eqn:E1;
    [apply Ascii.eqb_eq in E1; subst; reflexivity|].
  destruct (Ascii.eqb c "<"%char) eqn:E2;
    [apply Ascii.eqb_eq in E2; subst; reflexivity|].
  destruct (Ascii.eqb c ">"%char) eqn:E3;
    [apply Ascii.eqb_eq in E3; subst; reflexivity|].
  destruct (Ascii.eqb c dquote) eqn:E4;
    [apply Ascii.eqb_eq in E4; subst; reflexivity|].
  destruct (Ascii.eqb c "'"%char) eqn:E5;
    [apply Ascii.eqb_eq in E5; subst; reflexivity|].
  apply unescape_html_other. intros ->. discriminate E1.
Qed.

Lemma unescape_escapeHtml (s : string) : unescape_html (escapeHtml s) = s.
Proof.
  induction s as [|c s IH]; [reflexivity|].
  simpl escapeHtml. now rewrite unescape_escape_char, IH.
Qed.

(** ** Lemmas on the client *)

Lemma slice_last_app_suffix {A} (k : nat) (l t : list A) :
  length t <= k -> slice_last k (l ++ t) = slice_last (k - length t) l ++ t.
Proof.
  intros Ht. unfold slice_last. rewrite length_app, skipn_app.
  replace (length l + length t - k - length l) with 0 by lia.
  replace (length l + length t - k) with (length l - (k - length t)) by lia.
  reflexivity.
Qed.

Lemma chat_nonempty (svc : Request -> string + string) (now um : string)
    (f : option string) (h : option (list Message)) :
  um <> "" ->
  chat svc now {| message := Some um; feature := f; history := h |} =
    ([ai_request um f h], JsonResponse (snd (get_ai_response svc um f h)) now).
Proof.
  intros Hne. unfold chat; cbn [message feature history].
  apply String.eqb_neq in Hne. now rewrite Hne.
Qed.


Lemma sendMessage_sent js_trim server c st st' body :
  sendMessage js_trim server c st = (st', Some body) ->
  exists m,
    isLoading st = false /\ m <> "" /\
    body = {| message := Some m; feature := selectedFeature st;
              history := Some (chatHistory st ++ [ {| role := "user"; content := m |} ]) |} /\
    selectedFeature st' = selectedFeature st /\
    isLoading st' = false /\
    chatHistory st' =
      match server body with
      | Fetched (JsonResponse response _) =>
          chatHistory st ++ [ {| role := "user"; content := m |};
                              {| role := "assistant"; content := response |} ]
      | _ => chatHistory st ++ [ {| role := "user"; content := m |} ]
      end.
Proof.
  intros Hs. unfold sendMessage in Hs.
  destruct (isLoading st) eqn:L; [congruence|].
  match type of Hs with context [if String.eqb ?m "" then _ else _] =>
    destruct (String.eqb m "") eqn:E; [congruence|]; exists m end.
  inversion Hs; subst; clear Hs.
  split; [reflexivity|]. split; [apply String.eqb_neq, E|].
  split; [reflexivity|]. split; [reflexivity|]. split; [reflexivity|].
  cbn [chatHistory].
  destruct (server _) as [[r t|e n]|e]; [|reflexivity|reflexivity].
  now rewrite <- app_assoc.
Qed.

(** ** escapeHtml *)

(** X1: the output of [escapeHtml] contains no less-than, greater-than,
    double quote or single quote character. *)
Theorem escapeHtml_no_markup (text : string) :
  all_chars (fun c => negb (markup_char c)) (escapeHtml text) = true.
Proof.
  induction text as [|c text IH]; [reflexivity|].
  simpl escapeHtml. now rewrite all_chars_app, escape_char_no_markup, IH.
Qed.

(** X2: [escapeHtml] is injective: two different texts are never
    displayed as the same HTML. *)
Theorem escapeHtml_injective (s1 s2 : string) (Heq : escapeHtml s1 = escapeHtml s2) :
  s1 = s2.
Proof.
  rewrite <- (unescape_escapeHtml s1), <- (unescape_escapeHtml s2).
  now rewrite Heq.
Qed.

Lemma escapeHtml_injective_witness :
  escapeHtml "a<b" = escapeHtml "a<b" /\ "a<b" = "a<b".
Proof.
  split; [reflexivity|]. apply escapeHtml_injective. reflexivity.
Defined.

(** X3: a text without any of the five special characters is left
    unchanged by [escapeHtml]. *)
Theorem escapeHtml_plain (text : string)
    (Hplain : all_chars (fun c => negb (html_special c)) text = true) :
  escapeHtml text = text.
Proof.
  induction text as [|c text IH]; [reflexivity|].
  simpl in Hplain. apply andb_true_iff in Hplain as [Hc Hrest].
  simpl escapeHtml. rewrite (IH Hrest).
  unfold html_special in Hc. unfold escape_char.
  destruct (Ascii.eqb c "&"%char); [discriminate|].
  destruct (Ascii.eqb c "<"%char); [discriminate|].
  destruct (Ascii.eqb c ">"%char); [discriminate|].
  destruct (Ascii.eqb c dquote); [discriminate|].
  destruct (Ascii.eqb c "'"%char); [discriminate|].
  reflexivity.
Qed.

Lemma escapeHtml_plain_witness :
  all_chars (fun c => negb (html_special c)) "aphids on tomato" = true /\
  escapeHtml "aphids on tomato" = "aphids on tomato".
Proof.
  split; [reflexivity|]. apply escapeHtml_plain. reflexivity.
Defined.

(** ** Prompt and catalog *)

(** X4: whatever the topic argument, the system prompt starts with the
    whole base prompt; a topic can only add text after it. *)
Theorem system_prompt_extends_base (f : option string) :
  exists suffix, generate_system_prompt f = (base_prompt ++ suffix)%string.
Proof.
  unfold generate_system_prompt.
  destruct f as [s|]; [|exists EmptyString; now rewrite string_app_empty_r].
  destruct (negb (String.eqb s "")); [|exists EmptyString; now rewrite string_app_empty_r].
  destruct (dict_get s feature_contexts) as [ctx|];
    [now exists ctx | exists EmptyString; now rewrite string_app_empty_r].
Qed.

(** X5: the feature cards, the prompt registry and the sample prompts
    list the same topic ids in the same order, and selecting any card
    changes the system prompt. *)
Theorem feature_cards_registered :
  map feature_id FEATURES = map fst feature_contexts /\
  map feature_id FEATURES = map fst SAMPLE_PROMPTS /\
  Forall (fun ft => generate_system_prompt (Some (feature_id ft)) <> base_prompt)
         FEATURES.
Proof.
  split; [reflexivity|]. split; [reflexivity|].
  repeat constructor; intros Heq; apply (f_equal String.length) in Heq;
    vm_compute in Heq; discriminate Heq.
Qed.

(** ** The client *)

(** X6: a sample-prompt button, clicked while no request is pending,
    always posts exactly its prompt (every sample prompt is non-empty),
    with the selected topic and the history extended by the prompt, and
    leaves the textarea untouched. *)
Theorem sample_prompt_sends js_trim server (st : ClientState) (p : string)
    (Hidle : isLoading st = false)
    (Hp : In p (concat (map snd SAMPLE_PROMPTS))) :
  snd (sendMessage js_trim server (Some p) st) =
    Some {| message := Some p; feature := selectedFeature st;
            history := Some (chatHistory st ++ [ {| role := "user"; content := p |} ]) |} /\
  inputValue (fst (sendMessage js_trim server (Some p) st)) = inputValue st.
Proof.
  assert (Hne : String.eqb p "" = false).
  { simpl in Hp. repeat (destruct Hp as [<-|Hp]; [reflexivity|]). destruct Hp. }
  unfold sendMessage. rewrite Hidle, Hne. cbn zeta. rewrite Hne.
  split; reflexivity.
Qed.

Lemma sample_prompt_sends_witness :
  isLoading client_init = false /\
  In "Best crops for monsoon season in Kerala" (concat (map snd SAMPLE_PROMPTS)) /\
  inputValue (fst (sendMessage (fun s => s) (fun _ => FetchFailed "offline")
                 (Some "Best crops for monsoon season in Kerala") client_init)) = "".
Proof.
  assert (Hin : In "Best crops for monsoon season in Kerala"
                   (concat (map snd SAMPLE_PROMPTS))).
  { simpl. tauto. }
  split; [reflexivity|]. split; [exact Hin|].
  apply (sample_prompt_sends (fun s => s) (fun _ => FetchFailed "offline")
           client_init _ eq_refl Hin).
Defined.

(** X7: while a request is pending, or when no sample prompt is given and
    the trimmed textarea is empty, [sendMessage] posts nothing and
    changes nothing. *)
Theorem sendMessage_blank_noop js_trim server (c : option string) (st : ClientState)
    (Hblank : isLoading st = true \/
              ((c = None \/ c = Some "") /\ js_trim (inputValue st) = "")) :
  sendMessage js_trim server c st = (st, None).
Proof.
  unfold sendMessage.
  destruct Hblank as [-> | [Hc Ht]]; [reflexivity|].
  destruct (isLoading st); [reflexivity|].
  destruct Hc as [-> | ->]; cbn; rewrite Ht; reflexivity.
Qed.

Lemma sendMessage_blank_noop_witness :
  sendMessage (fun s => s) (fun _ => FetchFailed "offline") None client_init =
    (client_init, None).
Proof.
  apply sendMessage_blank_noop. right. split; [left|]; reflexivity.
Defined.

(** X8: with a server that does not answer with a response (an error
    JSON or a failed fetch), a sent turn adds only the user's message to
    [chatHistory]: the next turn's history has two user entries in a
    row. *)
Theorem failed_turn_keeps_user_only js_trim server (c : option string)
    (st st' : ClientState) (body : ChatData)
    (Hsent : sendMessage js_trim server c st = (st', Some body))
    (Hnoresp : forall r t, server body <> Fetched (JsonResponse r t)) :
  exists m, message body = Some m /\
    chatHistory st' = chatHistory st ++ [ {| role := "user"; content := m |} ].
Proof.
  destruct (sendMessage_sent _ _ _ _ _ _ Hsent)
    as [m [_ [_ [Hb [_ [_ Hh]]]]]].
  exists m. split; [now rewrite Hb|]. rewrite Hh.
  destruct (server body) as [[r t|e n]|e]; [|reflexivity|reflexivity].
  exfalso. exact (Hnoresp r t eq_refl).
Qed.

Lemma failed_turn_keeps_user_only_witness :
  exists st' body,
    sendMessage (fun s => s) (fun _ => FetchFailed "Failed to fetch") None
      (client_step (fun s => s) (fun _ => FetchFailed "Failed to fetch")
         client_init (TypeInput "hi")) = (st', Some body) /\
    chatHistory st' = [ {| role := "user"; content := "hi" |} ].
Proof.
  do 2 eexists. split; [reflexivity|].
  destruct (failed_turn_keeps_user_only (fun s => s) (fun _ => FetchFailed "Failed to fetch")
              None (client_step (fun s => s) (fun _ => FetchFailed "Failed to fetch")
                      client_init (TypeInput "hi")) _ _ eq_refl
              ltac:(discriminate)) as [m [Hm Hh]].
  rewrite Hh. injection Hm as <-. reflexivity.
Defined.

(** X9: against this server, every message the client posts is accepted
    (never the 400 error), and the turn adds exactly two entries to
    [chatHistory]: the user's message and, as an assistant entry, the
    text [get_ai_response] returned (the model's answer or the fallback
    text). *)
Theorem client_turn_appends_pair (svc : Request -> string + string) (now : string)
    js_trim (c : option string) (st st' : ClientState) (body : ChatData)
    (Hsent : sendMessage js_trim (server_of svc now) c st = (st', Some body)) :
  exists m,
    message body = Some m /\
    snd (chat svc now body) =
      JsonResponse (snd (get_ai_response svc m (selectedFeature st) (history body))) now /\
    chatHistory st' =
      chatHistory st ++
        [ {| role := "user"; content := m |};
          {| role := "assistant";
             content := snd (get_ai_response svc m (selectedFeature st) (history body)) |} ].
Proof.
  destruct (sendMessage_sent _ _ _ _ _ _ Hsent)
    as [m [_ [Hne [Hb [_ [_ Hh]]]]]].
  exists m. subst body. split; [reflexivity|].
  rewrite (chat_nonempty svc now m _ _ Hne). split; [reflexivity|].
  rewrite Hh. unfold server_of. now rewrite (chat_nonempty svc now m _ _ Hne).
Qed.

Lemma client_turn_appends_pair_witness :
  exists st' body,
    sendMessage (fun s => s) (server_of (fun _ => inr "quota") "t") None
      {| selectedFeature := None; chatHistory := []; isLoading := false;
         inputValue := "hi" |} = (st', Some body) /\
    chatHistory st' = [ {| role := "user"; content := "hi" |};
                        {| role := "assistant"; content := fallback "quota" |} ].
Proof.
  do 2 eexists. split; [reflexivity|].
  destruct (client_turn_appends_pair (fun _ => inr "quota") "t" (fun s => s) None
              {| selectedFeature := None; chatHistory := []; isLoading := false;
                 inputValue := "hi" |} _ _ eq_refl) as [m [Hm [_ Hh]]].
  rewrite Hh. injection Hm as <-. reflexivity.
Defined.

(** X10: the client sends the new message twice: it is the last entry
    of the posted history and also the sent message, so the context the
    model receives ends with two identical user entries. *)
Theorem client_message_sent_twice (svc : Request -> string + string) (now : string)
    js_trim server (c : option string) (st st' : ClientState) (body : ChatData)
    (Hsent : sendMessage js_trim server c st = (st', Some body)) :
  exists m r pre,
    message body = Some m /\
    fst (chat svc now body) = [r] /\
    invocation_context r =
      pre ++ [ {| c_role := "user"; parts := [m] |};
               {| c_role := "user"; parts := [m] |} ].
Proof.
  destruct (sendMessage_sent _ _ _ _ _ _ Hsent)
    as [m [_ [Hne [Hb _]]]].
  subst body. rewrite (chat_nonempty svc now m _ _ Hne).
  eexists m, _, (priming_pair (selectedFeature st) ++
                 map convert (slice_last 5 (chatHistory st))).
  split; [reflexivity|]. split; [reflexivity|].
  rewrite invocation_context_ai_request, history_window_some.
  rewrite (slice_last_app_suffix 6) by (simpl; lia).
  rewrite map_app, <- !app_assoc. reflexivity.
Qed.

Lemma client_message_sent_twice_witness :
  exists st' body,
    sendMessage (fun s => s) (fun _ => FetchFailed "offline") None
      {| selectedFeature := None; chatHistory := []; isLoading := false;
         inputValue := "hi" |} = (st', Some body) /\
    exists m r pre, message body = Some m /\
      fst (chat (fun _ => inl "ok") "t" body) = [r] /\
      invocation_context r =
        pre ++ [ {| c_role := "user"; parts := [m] |};
                 {| c_role := "user"; parts := [m] |} ].
Proof.
  do 2 eexists. split; [reflexivity|].
  apply (client_message_sent_twice (fun _ => inl "ok") "t" (fun s => s)
           (fun _ => FetchFailed "offline") None
           {| selectedFeature := None; chatHistory := []; isLoading := false;
              inputValue := "hi" |} _ _ eq_refl).
Defined.



(** X12: over two consecutive turns against this server, the second
    context ends with the first message (user), the first answer (as a
    [model] entry), then the second message twice. *)
Theorem two_turns_context (svc : Request -> string + string) (now : string)
    js_trim (c1 c2 : option string) (st st1 st2 : ClientState) (b1 b2 : ChatData)
    (Hsent1 : sendMessage js_trim (server_of svc now) c1 st = (st1, Some b1))
    (Hsent2 : sendMessage js_trim (server_of svc now) c2 st1 = (st2, Some b2)) :
  exists m1 m2 r pre,
    message b1 = Some m1 /\ message b2 = Some m2 /\
    fst (chat svc now b2) = [r] /\
    invocation_context r =
      pre ++ [ {| c_role := "user"; parts := [m1] |};
               {| c_role := "model";
                  parts := [snd (get_ai_response svc m1 (selectedFeature st) (history b1))] |};
               {| c_role := "user"; parts := [m2] |};
               {| c_role := "user"; parts := [m2] |} ].
Proof.
  destruct (sendMessage_sent _ _ _ _ _ _ Hsent1)
    as [m1 [_ [Hne1 [Hb1 [Hf1 [_ Hh1]]]]]].
  destruct (sendMessage_sent _ _ _ _ _ _ Hsent2)
    as [m2 [_ [Hne2 [Hb2 _]]]].
  unfold server_of in Hh1. rewrite Hb1, (chat_nonempty svc now m1 _ _ Hne1) in Hh1.
  cbn [snd] in Hh1.
  subst b2. rewrite (chat_nonempty svc now m2 _ _ Hne2).
  rewrite Hh1, Hf1, <- app_assoc. cbn [app].
  eexists m1, m2, _, (priming_pair (selectedFeature st) ++
                      map convert (slice_last 3 (chatHistory st))).
  split; [now rewrite Hb1|]. split; [reflexivity|]. split; [reflexivity|].
  rewrite invocation_context_ai_request, history_window_some.
  rewrite (slice_last_app_suffix 6 (chatHistory st)
             [ {| role := "user"; content := m1 |}; _; {| role := "user"; content := m2 |} ])
    by (simpl; lia).
  rewrite map_app, <- !app_assoc. rewrite Hb1. reflexivity.
Qed.

Lemma two_turns_context_witness :
  exists st1 b1 st2 b2,
    sendMessage (fun s => s) (server_of (fun _ => inl "Plant rice.") "t") None
      {| selectedFeature := Some "crop-recommendation"; chatHistory := [];
         isLoading := false; inputValue := "What to plant?" |} = (st1, Some b1) /\
    sendMessage (fun s => s) (server_of (fun _ => inl "Plant rice.") "t")
      (Some "Best crops for monsoon season in Kerala") st1 = (st2, Some b2) /\
    exists m1 m2 r pre,
      message b1 = Some m1 /\ message b2 = Some m2 /\
      fst (chat (fun _ => inl "Plant rice.") "t" b2) = [r] /\
      invocation_context r =
        pre ++ [ {| c_role := "user"; parts := [m1] |};
                 {| c_role := "model";
                    parts := [snd (get_ai_response (fun _ => inl "Plant rice.") m1
                                     (Some "crop-recommendation") (history b1))] |};
                 {| c_role := "user"; parts := [m2] |};
                 {| c_role := "user"; parts := [m2] |} ].
Proof.
  do 4 eexists. split; [reflexivity|]. split; [reflexivity|].
  apply (two_turns_context (fun _ => inl "Plant rice.") "t" (fun s => s) None
           (Some "Best crops for monsoon season in Kerala")
           {| selectedFeature := Some "crop-recommendation"; chatHistory := [];
              isLoading := false; inputValue := "What to plant?" |}
           _ _ _ _ eq_refl eq_refl).
Defined.
